(** * Shield thread entrypoint: stack guard, violation handler and [_start]

    Shallow embedding of [src/entrypoint/thread_init.c] and
    [include/shield/ssp.h].

    The C code is a straight line of stores and calls to functions that live
    outside the file ([__libc_init], [__shield_rand_set_seed], [main],
    [__sys_exit]).  It is embedded in a small state monad over a machine
    made of the memory, register [r0] and a trace of what crossed the
    boundary of the file.  A computation ends in one of four ways: it
    gives control back to its caller, the kernel ends the thread, control
    reaches a point the C code declares unreachable, or control stays for
    ever in a function outside the file.

    The program does no arithmetic: values of type [uint32_t] and [int] are
    carried as [Z] and every assignment is between objects of one type. *)

From Stdlib Require Import ZArith List Lia.
Import ListNotations.
Local Open Scope Z_scope.

(** ** C types *)

Definition uint32_t : Type := Z.
Definition int : Type := Z.

(** ** Build-time configuration *)

(** The preprocessor symbols the two files test.  [CONFIG_WITH_SENTRY] is
    used in an [#if]: an identifier that is not defined counts as [0]. *)
Record config : Type := {
  def___arm__ : bool;            (* [#ifdef __arm__], thread_init.c:20 *)
  def___ARM__ : bool;            (* [#ifdef __ARM__], ssp.h:10 *)
  CONFIG_WITH_SENTRY : option Z  (* [#if CONFIG_WITH_SENTRY], thread_init.c:65 *)
}.

Definition sentry_selected (cfg : config) : bool :=
  match CONFIG_WITH_SENTRY cfg with
  | Some v => negb (v =? 0)
  | None => false
  end.

Inductive build_error : Type :=
| No_supported_backend.          (* [# error "no supported backend"] *)

(** Why ssp.h does not compile. *)
Inductive header_error : Type :=
| Asm_operand_without_parentheses.   (* ssp.h:18 *)

(** ** Boundary events *)

(** The functions [_start] calls and that are defined outside the file. *)
Inductive callee : Type :=
| F_libc_init
| F_rand_set_seed
| F_main.

Definition callee_eqb (f g : callee) : bool :=
  match f, g with
  | F_libc_init, F_libc_init => true
  | F_rand_set_seed, F_rand_set_seed => true
  | F_main, F_main => true
  | _, _ => false
  end.

(** What an observer at the boundary of the file sees, oldest first in a
    trace.  [Call f args g]: control enters [f] with arguments [args]
    while the guard holds [g].  [Canary_mismatch f]: a compiler-inserted
    epilogue check inside [f] found the canary changed and branches to
    [__stack_chk_fail]. *)
Inductive event : Type :=
| Guard_store (v : Z)
| Call (f : callee) (args : list Z) (guard_seen : Z)
| Return (f : callee) (v : option Z)
| Canary_mismatch (f : callee)
| Sys_exit (status : Z)
| Svc (imm : Z) (r0 : Z).

(** ** Memory, machine and results *)

(** [__stack_chk_guard] (thread_init.c:18) next to the state that belongs
    to the code outside the file. *)
Record memory (env : Type) : Type := {
  __stack_chk_guard : uint32_t;
  world : env
}.
Arguments __stack_chk_guard {env} _.
Arguments world {env} _.

(** [uint32_t __stack_chk_guard = 0;]: the image as loaded. *)
Definition image_load {env : Type} (w : env) : memory env :=
  {| __stack_chk_guard := 0; world := w |}.

(** How a call to a function outside the file ends: it returns, one of its
    epilogue checks fails, or it never comes back (it loops for ever, or
    ends the thread on its own). *)
Inductive outcome (env A : Type) : Type :=
| Returns (a : A) (m : memory env)
| Smashes (m : memory env)
| Hangs.
Arguments Returns {env A} _ _.
Arguments Smashes {env A} _.
Arguments Hangs {env A}.

Record machine (env : Type) : Type := {
  mem : memory env;
  r0 : Z;
  trace : list event
}.
Arguments mem {env} _.
Arguments r0 {env} _.
Arguments trace {env} _.

Inductive result (env A : Type) : Type :=
| Returned (a : A) (m : machine env)   (* control is back in the caller *)
| Terminated (m : machine env)         (* the kernel ended the thread *)
| Undefined (m : machine env)          (* an unreachable point was reached *)
| Diverged (m : machine env).          (* a callee never came back *)
Arguments Returned {env A} _ _.
Arguments Terminated {env A} _.
Arguments Undefined {env A} _.
Arguments Diverged {env A} _.

Definition final {env A : Type} (r : result env A) : machine env :=
  match r with
  | Returned _ m => m
  | Terminated m => m
  | Undefined m => m
  | Diverged m => m
  end.

(** The kernel starts the first thread on the image as loaded. *)
Definition boot {env : Type} (w : env) (reg : Z) : machine env :=
  {| mem := image_load w; r0 := reg; trace := [] |}.

(** ** The monad *)

Definition M (env A : Type) : Type := machine env -> result env A.

Definition ret {env A : Type} (a : A) : M env A := fun m => Returned a m.

Definition bind {env A B : Type} (c : M env A) (k : A -> M env B) : M env B :=
  fun m =>
    match c m with
    | Returned a m' => k a m'
    | Terminated m' => Terminated m'
    | Undefined m' => Undefined m'
    | Diverged m' => Diverged m'
    end.

Declare Scope c_scope.
Delimit Scope c_scope with C.
Notation "x <- c ;; k" := (bind c (fun x => k))
  (at level 61, c at next level, right associativity) : c_scope.
Notation "c ;; k" := (bind c (fun _ => k))
  (at level 61, right associativity) : c_scope.

Definition record_event {env : Type} (e : event) (m : machine env) : machine env :=
  {| mem := mem m; r0 := r0 m; trace := trace m ++ [e] |}.

Definition with_mem {env : Type} (mm : memory env) (m : machine env) : machine env :=
  {| mem := mm; r0 := r0 m; trace := trace m |}.

(** ** The header ssp.h *)

(** What a file that includes ssp.h (lines 10-22) gets: an error, or the
    handler the header declares, if any.  Without [__ARM__] the header is
    empty.  With [__ARM__] it defines a [static inline] handler whose asm
    statement gives its input operand as the constraint followed by the
    bare name of the syscall identifier; GNU C wants the operand's
    expression in parentheses, as thread_init.c:28 has it, so the
    definition is a syntax error. *)
Definition ssp_h {env : Type} (cfg : config) : header_error + option (M env unit) :=
  if def___ARM__ cfg then inl Asm_operand_without_parentheses else inr None.

(** ** Functions declared in headers that are not part of the files *)

(** [uapi.h], [libc_init.h], [private/rand.h] and the user program. *)
Record externals (env : Type) : Type := {
  SYSCALL_EXIT : Z;
  __libc_init : memory env -> outcome env unit;
  __shield_rand_set_seed : uint32_t -> memory env -> outcome env unit;
  main : memory env -> outcome env int
}.
Arguments SYSCALL_EXIT {env} _.
Arguments __libc_init {env} _ _.
Arguments __shield_rand_set_seed {env} _ _ _.
Arguments main {env} _ _.

Section Program.

Context {env : Type}.
Variable X : externals env.
Variable cfg : config.

Local Open Scope c_scope.

(** [__stack_chk_guard = v;] *)
Definition store_guard (v : uint32_t) : M env unit :=
  fun m =>
    Returned tt
      {| mem := {| __stack_chk_guard := v; world := world (mem m) |};
         r0 := r0 m;
         trace := trace m ++ [Guard_store v] |}.

(** [ldr r0, =v] *)
Definition ldr_r0 (v : Z) : M env unit :=
  fun m => Returned tt {| mem := mem m; r0 := v; trace := trace m |}.

(** Modelled from the spec: the kernel side of [svc] is not in the files.
    The supervisor call takes the syscall identifier as its immediate
    operand and the status in [r0]; the exit syscall ends the thread and
    never comes back.  The spec is silent on other syscalls: they are
    taken to give control back. *)
Definition svc (imm : Z) : M env unit :=
  fun m =>
    let m' := record_event (Svc imm (r0 m)) m in
    if imm =? SYSCALL_EXIT X then Terminated m' else Returned tt m'.

(** Modelled from the spec: [__sys_exit] is declared in [uapi.h], which
    is not in the files.  [EXIT(status) -> never]: it ends the calling
    thread with the status it is given. *)
Definition __sys_exit (status : int) : M env unit :=
  fun m => Terminated (record_event (Sys_exit status) m).

(** [__builtin_unreachable();] *)
Definition __builtin_unreachable {A : Type} : M env A :=
  fun m => Undefined m.

(** *** The violation handler *)

(** thread_init.c:22-31, the definition under [#ifdef __arm__]. *)
Definition __stack_chk_fail_arm : M env unit :=
  ldr_r0 123 ;;
  svc (SYSCALL_EXIT X).

(** thread_init.c:33-39, the definition under [#else]. *)
Definition __stack_chk_fail_portable : M env unit :=
  __sys_exit 123.

(** The definition thread_init.c gives to the symbol. *)
Definition __stack_chk_fail : M env unit :=
  if def___arm__ cfg then __stack_chk_fail_arm else __stack_chk_fail_portable.

(** *** Calls to stack-protected functions *)

(** A call to [f], a function compiled with the stack protector.  When
    an epilogue check inside it fails, control goes to
    [__stack_chk_fail], which the compiler takes not to return. *)
Definition call {A : Type} (f : callee) (args : list Z)
    (body : memory env -> outcome env A) (value : A -> option Z) : M env A :=
  fun m =>
    let m1 := record_event (Call f args (__stack_chk_guard (mem m))) m in
    match body (mem m) with
    | Returns a mm => Returned a (record_event (Return f (value a)) (with_mem mm m1))
    | Smashes mm =>
        (__stack_chk_fail ;; __builtin_unreachable)
          (record_event (Canary_mismatch f) (with_mem mm m1))
    | Hangs => Diverged m1
    end.

(** *** The entry trampoline, thread_init.c:53-72 *)

(** The body as it is compiled when [CONFIG_WITH_SENTRY] selects the
    backend (line 66); the other branch of the [#if] is an [#error] and
    yields no code, see [thread_init_c] below. *)
Definition _start (thread_id seed : uint32_t) : M env unit :=
  store_guard seed ;;
  call F_libc_init [] (__libc_init X) (fun _ => None) ;;
  call F_rand_set_seed [seed] (__shield_rand_set_seed X seed) (fun _ => None) ;;
  task_ret <- call F_main [] (main X) Some ;;
  __sys_exit task_ret ;;
  __builtin_unreachable.

(** *** The translation unit *)

(** The symbols thread_init.c defines. *)
Record image : Type := {
  sym___stack_chk_guard : uint32_t;
  sym___stack_chk_fail : M env unit;
  sym__start : uint32_t -> uint32_t -> M env unit
}.

(** Compiling thread_init.c: the [#else] branch of line 65 is an
    [#error], so either the file compiles to the code above or it does
    not compile. *)
Definition thread_init_c : build_error + image :=
  if sentry_selected cfg
  then inr {| sym___stack_chk_guard := 0;
              sym___stack_chk_fail := __stack_chk_fail;
              sym__start := _start |}
  else inl No_supported_backend.

End Program.

Arguments image : clear implicits.

(** ** Reading a trace *)

(** The events a computation started on [m] added to the trace. *)
Definition events_since {env A : Type} (m : machine env) (r : result env A) : list event :=
  skipn (length (trace m)) (trace (final r)).

(** The status an event hands to the kernel's exit syscall, if it is one:
    a call of [__sys_exit], or a supervisor call whose immediate is the
    exit syscall identifier. *)
Definition exit_report (sys_exit : Z) (e : event) : option Z :=
  match e with
  | Sys_exit status => Some status
  | Svc imm reg => if imm =? sys_exit then Some reg else None
  | _ => None
  end.

Fixpoint exit_reports (sys_exit : Z) (l : list event) : list Z :=
  match l with
  | [] => []
  | e :: l' =>
      match exit_report sys_exit e with
      | Some status => status :: exit_reports sys_exit l'
      | None => exit_reports sys_exit l'
      end
  end.

(** The values stored to the guard. *)
Fixpoint guard_stores (l : list event) : list Z :=
  match l with
  | [] => []
  | Guard_store v :: l' => v :: guard_stores l'
  | _ :: l' => guard_stores l'
  end.

(** The functions whose epilogue check failed. *)
Fixpoint violations (l : list event) : list callee :=
  match l with
  | [] => []
  | Canary_mismatch f :: l' => f :: violations l'
  | _ :: l' => violations l'
  end.

(** The argument lists of the calls to [f]. *)
Fixpoint calls_to (f : callee) (l : list event) : list (list Z) :=
  match l with
  | [] => []
  | Call g args _ :: l' =>
      if callee_eqb f g then args :: calls_to f l' else calls_to f l'
  | _ :: l' => calls_to f l'
  end.

(** A function outside the file comes back: it returns or trips a check. *)
Definition comes_back {env A : Type} (f : memory env -> outcome env A) : Prop :=
  forall m, f m <> Hangs.

(** A function outside the file leaves the guard as it found it whenever it
    returns. *)
Definition preserves_guard {env A : Type} (f : memory env -> outcome env A) : Prop :=
  forall m a m', f m = Returns a m' -> __stack_chk_guard m' = __stack_chk_guard m.

(** The contract of the violation handler in the spec's words
    ([on_violation() -> never]): it reports the fixed status 123, once, and
    never returns. *)
Definition violation_contract {env : Type} (X : externals env) (h : M env unit) : Prop :=
  forall m : machine env,
    exists m', h m = Terminated m' /\
               exit_reports (SYSCALL_EXIT X) (events_since m (h m)) = [123].

(** The claim that [_start] hands its [thread_id] to the runtime
    initializer: some call to [__libc_init] has it among its arguments. *)
Definition thread_id_forwarded {env : Type} (X : externals env) (cfg : config)
    (thread_id seed : Z) (m : machine env) : Prop :=
  exists args,
    In args (calls_to F_libc_init (events_since m (_start X cfg thread_id seed m))) /\
    In thread_id args.

(** The claim that a run of [_start] issues exactly one terminal call. *)
Definition exactly_one_terminal_call {env : Type} (X : externals env) (cfg : config)
    (thread_id seed : Z) (m : machine env) : Prop :=
  length (exit_reports (SYSCALL_EXIT X)
            (events_since m (_start X cfg thread_id seed m))) = 1%nat.

(** Two outcomes of a call that differ at most in the guard they leave. *)
Definition outcome_sim {env A : Type} (o o' : outcome env A) : Prop :=
  match o, o' with
  | Returns a mm, Returns a' mm' => a = a' /\ world mm = world mm'
  | Smashes mm, Smashes mm' => world mm = world mm'
  | Hangs, Hangs => True
  | _, _ => False
  end.

(** Two functions outside the file that do the same on memories that
    differ at most in the guard, and may leave different guards. *)
Definition same_up_to_guard {env A : Type}
    (f f' : memory env -> outcome env A) : Prop :=
  forall mm mm', world mm = world mm' -> outcome_sim (f mm) (f' mm').

(** An event without the guard a callee found on entry. *)
Definition erase_guard_seen (e : event) : event :=
  match e with
  | Call f args _ => Call f args 0
  | _ => e
  end.

(** The event by which the handler thread_init.c defines reaches the
    kernel: the supervisor call on ARM, the call of [__sys_exit] elsewhere. *)
Definition violation_report {env : Type} (X : externals env) (cfg : config) : event :=
  if def___arm__ cfg then Svc (SYSCALL_EXIT X) 123 else Sys_exit 123.

(** The machine in which a run of [_start] ends after the check in [f]
    failed: [pre] is what the run had added to the trace when [f] was
    entered, [mm] the memory [f] left. *)
Definition violation_end {env : Type} (X : externals env) (cfg : config)
    (m : machine env) (pre : list event) (f : callee) (mm : memory env) : machine env :=
  {| mem := mm;
     r0 := if def___arm__ cfg then 123 else r0 m;
     trace := trace m ++ pre ++ [Canary_mismatch f; violation_report X cfg] |}.

(** ** Concrete programs and configurations *)

Definition sentry_arm : config :=
  {| def___arm__ := true; def___ARM__ := false; CONFIG_WITH_SENTRY := Some 1 |}.

Definition sentry_host : config :=
  {| def___arm__ := false; def___ARM__ := false; CONFIG_WITH_SENTRY := Some 1 |}.

Definition no_backend : config :=
  {| def___arm__ := true; def___ARM__ := false; CONFIG_WITH_SENTRY := None |}.

(** A user program whose [main] returns [v]; the state outside the file is
    the seed last given to the random number generator. *)
Definition returning (v : Z) : externals Z :=
  {| SYSCALL_EXIT := 0;
     __libc_init := fun m => Returns tt m;
     __shield_rand_set_seed :=
       fun s m => Returns tt {| __stack_chk_guard := __stack_chk_guard m; world := s |};
     main := fun m => Returns v m |}.

(** A user program whose [main] overruns a buffer on its stack. *)
Definition smashing : externals Z :=
  {| SYSCALL_EXIT := 0;
     __libc_init := fun m => Returns tt m;
     __shield_rand_set_seed :=
       fun s m => Returns tt {| __stack_chk_guard := __stack_chk_guard m; world := s |};
     main := fun m => Smashes m |}.

(** A user program whose [main] is an endless loop. *)
Definition looping : externals Z :=
  {| SYSCALL_EXIT := 0;
     __libc_init := fun m => Returns tt m;
     __shield_rand_set_seed :=
       fun s m => Returns tt {| __stack_chk_guard := __stack_chk_guard m; world := s |};
     main := fun _ => Hangs |}.

(** As [returning], with a runtime initializer that overwrites the guard. *)
Definition guard_rewriting (v : Z) : externals Z :=
  {| SYSCALL_EXIT := 0;
     __libc_init := fun m => Returns tt {| __stack_chk_guard := 170; world := world m |};
     __shield_rand_set_seed :=
       fun s m => Returns tt {| __stack_chk_guard := __stack_chk_guard m; world := s |};
     main := fun m => Returns v m |}.

(** A user program whose [main] returns the guard it finds. *)
Definition spying : externals Z :=
  {| SYSCALL_EXIT := 0;
     __libc_init := fun m => Returns tt m;
     __shield_rand_set_seed :=
       fun s m => Returns tt {| __stack_chk_guard := __stack_chk_guard m; world := s |};
     main := fun m => Returns (__stack_chk_guard m) m |}.

(** ** Runs on concrete inputs *)

Example scenario_A :
  _start (returning 0) sentry_arm 7 3735928559 (boot 0 7) =
  Terminated
    {| mem := {| __stack_chk_guard := 3735928559; world := 3735928559 |};
       r0 := 7;
       trace := [Guard_store 3735928559;
                 Call F_libc_init [] 3735928559; Return F_libc_init None;
                 Call F_rand_set_seed [3735928559] 3735928559; Return F_rand_set_seed None;
                 Call F_main [] 3735928559; Return F_main (Some 0);
                 Sys_exit 0] |}.
Proof. reflexivity. Qed.

Example scenario_B :
  exit_reports 0 (trace (final (_start (returning 42) sentry_host 1 1 (boot 0 1)))) = [42].
Proof. reflexivity. Qed.

Example scenario_C_arm :
  _start smashing sentry_arm 1 1 (boot 0 1) =
  Terminated
    {| mem := {| __stack_chk_guard := 1; world := 1 |};
       r0 := 123;
       trace := [Guard_store 1;
                 Call F_libc_init [] 1; Return F_libc_init None;
                 Call F_rand_set_seed [1] 1; Return F_rand_set_seed None;
                 Call F_main [] 1; Canary_mismatch F_main;
                 Svc 0 123] |}.
Proof. reflexivity. Qed.

Example scenario_C_host :
  exit_reports 0 (trace (final (_start smashing sentry_host 1 1 (boot 0 1)))) = [123].
Proof. reflexivity. Qed.

Example spying_main_sees_seed :
  exit_reports 0 (trace (final (_start spying sentry_arm 9 77 (boot 0 9)))) = [77].
Proof. reflexivity. Qed.

Example looping_main_never_exits :
  _start looping sentry_arm 1 1 (boot 0 1) =
  Diverged
    {| mem := {| __stack_chk_guard := 1; world := 1 |};
       r0 := 1;
       trace := [Guard_store 1;
                 Call F_libc_init [] 1; Return F_libc_init None;
                 Call F_rand_set_seed [1] 1; Return F_rand_set_seed None;
                 Call F_main [] 1] |}.
Proof. reflexivity. Qed.

Example guard_rewriting_initializer :
  _start (guard_rewriting 0) sentry_host 1 5 (boot 0 1) =
  Terminated
    {| mem := {| __stack_chk_guard := 170; world := 5 |};
       r0 := 1;
       trace := [Guard_store 5;
                 Call F_libc_init [] 5; Return F_libc_init None;
                 Call F_rand_set_seed [5] 170; Return F_rand_set_seed None;
                 Call F_main [] 170; Return F_main (Some 0);
                 Sys_exit 0] |}.
Proof. reflexivity. Qed.

Example ssp_h_with_ARM_defined :
  @ssp_h Z {| def___arm__ := true; def___ARM__ := true; CONFIG_WITH_SENTRY := Some 1 |} =
  inl Asm_operand_without_parentheses.
Proof. reflexivity. Qed.

Example no_backend_does_not_build :
  thread_init_c (returning 0) no_backend = inl No_supported_backend.
Proof. reflexivity. Qed.

(** ** Symbolic execution *)

Lemma skipn_length_app {A : Type} (l d : list A) :
  skipn (length l) (l ++ d) = d.
Proof.
  induction l as [|x l IH]; simpl; [reflexivity | exact IH].
Qed.

Lemma exit_report_violation {env : Type} (X : externals env) (cfg : config) :
  exit_report (SYSCALL_EXIT X) (violation_report X cfg) = Some 123.
Proof.
  unfold violation_report.
  destruct (def___arm__ cfg); simpl; [rewrite Z.eqb_refl|]; reflexivity.
Qed.

(** The handler of thread_init.c, run on any machine. *)
Lemma stack_chk_fail_run {env : Type} (X : externals env) (cfg : config) (m : machine env) :
  __stack_chk_fail X cfg m =
  Terminated {| mem := mem m;
                r0 := if def___arm__ cfg then 123 else r0 m;
                trace := trace m ++ [violation_report X cfg] |}.
Proof.
  unfold __stack_chk_fail, violation_report.
  destruct (def___arm__ cfg).
  - unfold __stack_chk_fail_arm, bind, ldr_r0, svc, record_event; simpl.
    rewrite Z.eqb_refl. reflexivity.
  - reflexivity.
Qed.

(** A call that ends in a failed check. *)
Lemma call_smashes {env A : Type} (X : externals env) (cfg : config)
    (f : callee) (args : list Z) (body : memory env -> outcome env A)
    (value : A -> option Z) (m : machine env) (mm : memory env) :
  body (mem m) = Smashes mm ->
  call X cfg f args body value m =
  Terminated {| mem := mm;
                r0 := if def___arm__ cfg then 123 else r0 m;
                trace := trace m ++ [Call f args (__stack_chk_guard (mem m));
                                     Canary_mismatch f;
                                     violation_report X cfg] |}.
Proof.
  intros Hb. unfold call. rewrite Hb. unfold bind.
  rewrite stack_chk_fail_run.
  unfold record_event, with_mem. simpl.
  rewrite <- ?app_assoc. reflexivity.
Qed.

(** A call that returns. *)
Lemma call_returns {env A : Type} (X : externals env) (cfg : config)
    (f : callee) (args : list Z) (body : memory env -> outcome env A)
    (value : A -> option Z) (m : machine env) (a : A) (mm : memory env) :
  body (mem m) = Returns a mm ->
  call X cfg f args body value m =
  Returned a {| mem := mm;
                r0 := r0 m;
                trace := trace m ++ [Call f args (__stack_chk_guard (mem m));
                                     Return f (value a)] |}.
Proof.
  intros Hb. unfold call. rewrite Hb.
  unfold record_event, with_mem. simpl.
  rewrite <- ?app_assoc. reflexivity.
Qed.

(** A call that never comes back. *)
Lemma call_hangs {env A : Type} (X : externals env) (cfg : config)
    (f : callee) (args : list Z) (body : memory env -> outcome env A)
    (value : A -> option Z) (m : machine env) :
  body (mem m) = Hangs ->
  call X cfg f args body value m =
  Diverged {| mem := mem m;
              r0 := r0 m;
              trace := trace m ++ [Call f args (__stack_chk_guard (mem m))] |}.
Proof.
  intros Hb. unfold call. rewrite Hb. reflexivity.
Qed.

(** Every run of [_start], by what the three functions it calls do. *)
Lemma _start_cases {env : Type} (X : externals env) (cfg : config)
    (thread_id seed : Z) (m : machine env) :
  _start X cfg thread_id seed m =
  match __libc_init X {| __stack_chk_guard := seed; world := world (mem m) |} with
  | Smashes mm =>
      Terminated (violation_end X cfg m
        [Guard_store seed; Call F_libc_init [] seed] F_libc_init mm)
  | Hangs =>
      Diverged {| mem := {| __stack_chk_guard := seed; world := world (mem m) |};
                  r0 := r0 m;
                  trace := trace m ++ [Guard_store seed; Call F_libc_init [] seed] |}
  | Returns _ m1 =>
      match __shield_rand_set_seed X seed m1 with
      | Smashes mm =>
          Terminated (violation_end X cfg m
            [Guard_store seed;
             Call F_libc_init [] seed; Return F_libc_init None;
             Call F_rand_set_seed [seed] (__stack_chk_guard m1)] F_rand_set_seed mm)
      | Hangs =>
          Diverged {| mem := m1;
                      r0 := r0 m;
                      trace := trace m ++
                        [Guard_store seed;
                         Call F_libc_init [] seed; Return F_libc_init None;
                         Call F_rand_set_seed [seed] (__stack_chk_guard m1)] |}
      | Returns _ m2 =>
          match main X m2 with
          | Smashes mm =>
              Terminated (violation_end X cfg m
                [Guard_store seed;
                 Call F_libc_init [] seed; Return F_libc_init None;
                 Call F_rand_set_seed [seed] (__stack_chk_guard m1);
                 Return F_rand_set_seed None;
                 Call F_main [] (__stack_chk_guard m2)] F_main mm)
          | Hangs =>
              Diverged {| mem := m2;
                          r0 := r0 m;
                          trace := trace m ++
                            [Guard_store seed;
                             Call F_libc_init [] seed; Return F_libc_init None;
                             Call F_rand_set_seed [seed] (__stack_chk_guard m1);
                             Return F_rand_set_seed None;
                             Call F_main [] (__stack_chk_guard m2)] |}
          | Returns v m3 =>
              Terminated
                {| mem := m3;
                   r0 := r0 m;
                   trace := trace m ++
                     [Guard_store seed;
                      Call F_libc_init [] seed; Return F_libc_init None;
                      Call F_rand_set_seed [seed] (__stack_chk_guard m1);
                      Return F_rand_set_seed None;
                      Call F_main [] (__stack_chk_guard m2); Return F_main (Some v);
                      Sys_exit v] |}
          end
      end
  end.
Proof.
  unfold _start, violation_end.
  unfold bind at 1. unfold store_guard at 1.
  destruct (__libc_init X _) as [u1 m1|mm|] eqn:H1.
  2:{ unfold bind at 1. erewrite call_smashes by (simpl; exact H1).
      simpl. rewrite <- ?app_assoc. reflexivity. }
  2:{ unfold bind at 1. erewrite call_hangs by (simpl; exact H1).
      simpl. rewrite <- ?app_assoc. reflexivity. }
  unfold bind at 1. erewrite call_returns by (simpl; exact H1).
  destruct (__shield_rand_set_seed X seed m1) as [u2 m2|mm|] eqn:H2.
  2:{ unfold bind at 1. erewrite call_smashes by (simpl; exact H2).
      simpl. rewrite <- ?app_assoc. reflexivity. }
  2:{ unfold bind at 1. erewrite call_hangs by (simpl; exact H2).
      simpl. rewrite <- ?app_assoc. reflexivity. }
  unfold bind at 1. erewrite call_returns by (simpl; exact H2).
  destruct (main X m2) as [v m3|mm|] eqn:H3.
  2:{ unfold bind at 1. erewrite call_smashes by (simpl; exact H3).
      simpl. rewrite <- ?app_assoc. reflexivity. }
  2:{ unfold bind at 1. erewrite call_hangs by (simpl; exact H3).
      simpl. rewrite <- ?app_assoc. reflexivity. }
  unfold bind at 1. erewrite call_returns by (simpl; exact H3).
  unfold bind, __sys_exit, record_event. simpl.
  rewrite <- ?app_assoc. reflexivity.
Qed.

Lemma events_since_app {env A : Type} (m : machine env) (r : result env A) (d : list event) :
  trace (final r) = trace m ++ d -> events_since m r = d.
Proof.
  intros H. unfold events_since. rewrite H. apply skipn_length_app.
Qed.

Lemma events_since_violation {env A : Type} (X : externals env) (cfg : config)
    (m : machine env) (pre : list event) (f : callee) (mm : memory env) :
  events_since m (@Terminated env A (violation_end X cfg m pre f mm)) =
  pre ++ [Canary_mismatch f; violation_report X cfg].
Proof.
  apply events_since_app. reflexivity.
Qed.

(** Runs [_start] symbolically and splits on what the callees do. *)
Ltac start_cases X cfg thread_id seed m :=
  rewrite (_start_cases X cfg thread_id seed m);
  let u := fresh "u" in
  let w := fresh "w" in
  let m1 := fresh "m1" in
  let m2 := fresh "m2" in
  let m3 := fresh "m3" in
  let v := fresh "v" in
  let mm := fresh "mm" in
  let H1 := fresh "Hinit" in
  let H2 := fresh "Hrand" in
  let H3 := fresh "Hmain" in
  destruct (__libc_init X _) as [u m1|mm|] eqn:H1;
  [ destruct (__shield_rand_set_seed X seed m1) as [w m2|mm|] eqn:H2;
    [ destruct (main X m2) as [v m3|mm|] eqn:H3 | | ]
  | | ];
  rewrite ?events_since_violation;
  try (erewrite events_since_app by (simpl; reflexivity)).

Lemma violation_report_not_call {env : Type} (X : externals env) (cfg : config)
    (f : callee) (args : list Z) (g : Z) :
  violation_report X cfg <> Call f args g.
Proof.
  unfold violation_report. destruct (def___arm__ cfg); discriminate.
Qed.

Lemma violation_report_not_return {env : Type} (X : externals env) (cfg : config)
    (f : callee) (v : option Z) :
  violation_report X cfg <> Return f v.
Proof.
  unfold violation_report. destruct (def___arm__ cfg); discriminate.
Qed.

(** Splits a membership in an explicit list into its cases and drops the
    impossible ones. *)
Ltac in_cases H :=
  simpl in H;
  repeat match type of H with
         | _ \/ _ => destruct H as [H|H]
         | False => destruct H
         | violation_report _ _ = Call _ _ _ =>
             exfalso; exact (violation_report_not_call _ _ _ _ _ H)
         | violation_report _ _ = Return _ _ =>
             exfalso; exact (violation_report_not_return _ _ _ _ H)
         | _ = _ => discriminate H
         end.

(** ** The guard is in place when [main] starts *)

(** C1.  For every seed [s], a run of [_start] with that seed begins by
    storing [s] to [__stack_chk_guard], and whenever control then enters
    [main] the guard holds [s], provided the runtime initializer and the
    RNG seeder leave the guard alone; when both return, [main] is entered. *)
Theorem start_sets_guard_before_main :
  forall (env : Type) (X : externals env) (cfg : config)
         (thread_id s : Z) (m : machine env),
    preserves_guard (__libc_init X) ->
    preserves_guard (__shield_rand_set_seed X s) ->
    exists rest,
      events_since m (_start X cfg thread_id s m) = Guard_store s :: rest /\
      (forall args g, In (Call F_main args g) rest -> g = s) /\
      (forall m1 m2,
          __libc_init X {| __stack_chk_guard := s; world := world (mem m) |} = Returns tt m1 ->
          __shield_rand_set_seed X s m1 = Returns tt m2 ->
          In (Call F_main [] s) rest).
Proof.
  intros env X cfg thread_id s m Pinit Prand.
  start_cases X cfg thread_id s m;
    (eexists; split; [simpl; reflexivity|]);
    (split; [intros args g Hin; in_cases Hin | intros ma mb Ha Hb; try congruence]).
  all: try (injection Hin as _ Hg; subst g;
            rewrite (Prand _ _ _ Hrand); apply (Pinit _ _ _ Hinit)).
  all: rewrite (Prand _ _ _ Hrand), (Pinit _ _ _ Hinit); simpl;
       do 4 right; left; reflexivity.
Qed.

Lemma start_sets_guard_before_main_witness :
  preserves_guard (__libc_init spying) /\
  preserves_guard (__shield_rand_set_seed spying 77) /\
  exists rest,
    events_since (boot 0 9) (_start spying sentry_arm 9 77 (boot 0 9)) =
      Guard_store 77 :: rest /\
    (forall args g, In (Call F_main args g) rest -> g = 77) /\
    (forall m1 m2,
        __libc_init spying {| __stack_chk_guard := 77; world := world (mem (boot 0 9)) |}
          = Returns tt m1 ->
        __shield_rand_set_seed spying 77 m1 = Returns tt m2 ->
        In (Call F_main [] 77) rest).
Proof.
  assert (P1 : preserves_guard (__libc_init spying)).
  { intros m a m' H; simpl in H; injection H as _ H; subst m'; reflexivity. }
  assert (P2 : preserves_guard (__shield_rand_set_seed spying 77)).
  { intros m a m' H; simpl in H; injection H as _ H; subst m'; reflexivity. }
  split; [exact P1 | split; [exact P2 |]].
  exact (start_sets_guard_before_main Z spying sentry_arm 9 77 (boot 0 9) P1 P2).
Defined.

(** ** The value [main] returns is the exit status *)

(** C2.  For every value [v] that [main] returns, the run of [_start] ends
    in the kernel with exactly one exit report; it is the call
    [__sys_exit(v)], it carries [v] unchanged whatever [v] is, no check
    failed on the way and it is the last event of the run. *)
Theorem main_return_value_is_exit_status :
  forall (env : Type) (X : externals env) (cfg : config)
         (thread_id seed : Z) (m : machine env)
         (m1 m2 m3 : memory env) (v : Z),
    __libc_init X {| __stack_chk_guard := seed; world := world (mem m) |} = Returns tt m1 ->
    __shield_rand_set_seed X seed m1 = Returns tt m2 ->
    main X m2 = Returns v m3 ->
    exists mf pre,
      _start X cfg thread_id seed m = Terminated mf /\
      mem mf = m3 /\
      events_since m (_start X cfg thread_id seed m) = pre ++ [Sys_exit v] /\
      exit_reports (SYSCALL_EXIT X) pre = [] /\
      violations pre = [] /\
      exit_reports (SYSCALL_EXIT X) (events_since m (_start X cfg thread_id seed m)) = [v].
Proof.
  intros env X cfg thread_id seed m m1 m2 m3 v H1 H2 H3.
  rewrite (_start_cases X cfg thread_id seed m), H1, H2, H3.
  erewrite events_since_app by (simpl; reflexivity).
  eexists.
  exists [Guard_store seed;
          Call F_libc_init [] seed; Return F_libc_init None;
          Call F_rand_set_seed [seed] (__stack_chk_guard m1);
          Return F_rand_set_seed None;
          Call F_main [] (__stack_chk_guard m2); Return F_main (Some v)].
  repeat split; reflexivity.
Qed.

Lemma main_return_value_is_exit_status_witness :
  exists mf pre,
    _start (returning 42) sentry_host 1 1 (boot 0 1) = Terminated mf /\
    mem mf = {| __stack_chk_guard := 1; world := 1 |} /\
    events_since (boot 0 1) (_start (returning 42) sentry_host 1 1 (boot 0 1)) =
      pre ++ [Sys_exit 42] /\
    exit_reports 0 pre = [] /\
    violations pre = [] /\
    exit_reports 0 (events_since (boot 0 1) (_start (returning 42) sentry_host 1 1 (boot 0 1)))
      = [42].
Proof.
  exact (main_return_value_is_exit_status Z (returning 42) sentry_host 1 1 (boot 0 1)
           {| __stack_chk_guard := 1; world := 0 |}
           {| __stack_chk_guard := 1; world := 1 |}
           {| __stack_chk_guard := 1; world := 1 |}
           42 eq_refl eq_refl eq_refl).
Defined.

(** ** The violation handler *)

(** C3.  Whatever the configuration and the state it is entered in,
    [__stack_chk_fail] ends in the kernel: it never returns, reaches no
    unreachable point and calls nothing else.  It adds exactly one event,
    an exit report with status 123, and leaves the memory as it was; the
    status is the same in any two states. *)
Theorem stack_chk_fail_reports_123_and_never_returns :
  forall (env : Type) (X : externals env) (cfg : config) (m m' : machine env),
    (exists mf e,
        __stack_chk_fail X cfg m = Terminated mf /\
        mem mf = mem m /\
        events_since m (__stack_chk_fail X cfg m) = [e] /\
        exit_report (SYSCALL_EXIT X) e = Some 123) /\
    exit_reports (SYSCALL_EXIT X) (events_since m (__stack_chk_fail X cfg m)) = [123] /\
    events_since m (__stack_chk_fail X cfg m) =
      events_since m' (__stack_chk_fail X cfg m').
Proof.
  intros env X cfg m m'.
  rewrite !stack_chk_fail_run.
  rewrite !(events_since_app _ _ [violation_report X cfg]) by reflexivity.
  split; [|split].
  - eexists. exists (violation_report X cfg).
    repeat split. apply exit_report_violation.
  - simpl. rewrite exit_report_violation. reflexivity.
  - reflexivity.
Qed.

(** ** Order of the bootstrap *)

(** C4.  When the three functions [_start] calls return, one run of
    [_start] consists of exactly these events in this order: the store of
    [seed] to the guard; the call of [__libc_init] and its return; the call
    of [__shield_rand_set_seed] with that same [seed] and its return; the
    call of [main] without arguments and its return of [v]; the call
    [__sys_exit(v)]. *)
Theorem bootstrap_steps_in_order :
  forall (env : Type) (X : externals env) (cfg : config)
         (thread_id seed : Z) (m : machine env)
         (m1 m2 m3 : memory env) (v : Z),
    __libc_init X {| __stack_chk_guard := seed; world := world (mem m) |} = Returns tt m1 ->
    __shield_rand_set_seed X seed m1 = Returns tt m2 ->
    main X m2 = Returns v m3 ->
    events_since m (_start X cfg thread_id seed m) =
      [Guard_store seed;
       Call F_libc_init [] seed; Return F_libc_init None;
       Call F_rand_set_seed [seed] (__stack_chk_guard m1); Return F_rand_set_seed None;
       Call F_main [] (__stack_chk_guard m2); Return F_main (Some v);
       Sys_exit v].
Proof.
  intros env X cfg thread_id seed m m1 m2 m3 v H1 H2 H3.
  rewrite (_start_cases X cfg thread_id seed m), H1, H2, H3.
  apply events_since_app. reflexivity.
Qed.

Lemma bootstrap_steps_in_order_witness :
  events_since (boot 0 7) (_start (returning 0) sentry_arm 7 3735928559 (boot 0 7)) =
    [Guard_store 3735928559;
     Call F_libc_init [] 3735928559; Return F_libc_init None;
     Call F_rand_set_seed [3735928559] 3735928559; Return F_rand_set_seed None;
     Call F_main [] 3735928559; Return F_main (Some 0);
     Sys_exit 0].
Proof.
  exact (bootstrap_steps_in_order Z (returning 0) sentry_arm 7 3735928559 (boot 0 7)
           {| __stack_chk_guard := 3735928559; world := 0 |}
           {| __stack_chk_guard := 3735928559; world := 3735928559 |}
           {| __stack_chk_guard := 3735928559; world := 3735928559 |}
           0 eq_refl eq_refl eq_refl).
Defined.

(** ** One terminal call *)

(** C5, as stated, fails: when [main] is an endless loop the run of
    [_start] issues no terminal call. *)
Lemma looping_main_issues_no_terminal_call :
  ~ exactly_one_terminal_call looping sentry_arm 1 1 (boot 0 1).
Proof.
  unfold exactly_one_terminal_call. vm_compute. discriminate.
Qed.

(** C5, amended.  Whatever the functions it calls do, a run of [_start] never gives
    control back to its caller, never reaches the point after
    [__sys_exit], and hands the kernel at most one exit report.  When the
    functions it calls come back, the run ends in the kernel and its last
    event is the only exit report of the run.  That report is either the
    normal exit, [__sys_exit(v)] for the [v] that [main] returned with no
    check having failed, or the violation report with status 123 after
    exactly one failed check and without [main] having returned; never
    both. *)
Theorem start_issues_exactly_one_terminal_call :
  forall (env : Type) (X : externals env) (cfg : config)
         (thread_id seed : Z) (m : machine env),
    (exists mf, _start X cfg thread_id seed m = Terminated mf \/
                _start X cfg thread_id seed m = Diverged mf) /\
    (length (exit_reports (SYSCALL_EXIT X)
               (events_since m (_start X cfg thread_id seed m))) <= 1)%nat /\
    (comes_back (__libc_init X) ->
     comes_back (__shield_rand_set_seed X seed) ->
     comes_back (main X) ->
     exists mf pre e,
       _start X cfg thread_id seed m = Terminated mf /\
       events_since m (_start X cfg thread_id seed m) = pre ++ [e] /\
       exit_reports (SYSCALL_EXIT X) pre = [] /\
       ((violations pre = [] /\
         exists v, In (Return F_main (Some v)) pre /\ e = Sys_exit v)
        \/
        (exists f, violations pre = [f] /\
                   exit_report (SYSCALL_EXIT X) e = Some 123 /\
                   forall v, ~ In (Return F_main v) pre))).
Proof.
  intros env X cfg thread_id seed m.
  split; [| split].
  { start_cases X cfg thread_id seed m;
      eexists; (left; reflexivity) || (right; reflexivity). }
  { start_cases X cfg thread_id seed m;
      simpl; rewrite ?exit_report_violation; simpl; lia. }
  intros B1 B2 B3.
  start_cases X cfg thread_id seed m;
    try (exfalso; first [ eapply B1; eassumption
                        | eapply B2; eassumption
                        | eapply B3; eassumption ]).
  - eexists.
    exists [Guard_store seed;
            Call F_libc_init [] seed; Return F_libc_init None;
            Call F_rand_set_seed [seed] (__stack_chk_guard m1);
            Return F_rand_set_seed None;
            Call F_main [] (__stack_chk_guard m2); Return F_main (Some v)].
    exists (Sys_exit v).
    repeat split. left. split; [reflexivity|].
    exists v. split; [simpl; tauto | reflexivity].
  - eexists.
    exists [Guard_store seed;
            Call F_libc_init [] seed; Return F_libc_init None;
            Call F_rand_set_seed [seed] (__stack_chk_guard m1);
            Return F_rand_set_seed None;
            Call F_main [] (__stack_chk_guard m2); Canary_mismatch F_main].
    exists (violation_report X cfg).
    repeat split. right. exists F_main.
    split; [reflexivity | split; [apply exit_report_violation|]].
    intros r Hin. in_cases Hin.
  - eexists.
    exists [Guard_store seed;
            Call F_libc_init [] seed; Return F_libc_init None;
            Call F_rand_set_seed [seed] (__stack_chk_guard m1);
            Canary_mismatch F_rand_set_seed].
    exists (violation_report X cfg).
    repeat split. right. exists F_rand_set_seed.
    split; [reflexivity | split; [apply exit_report_violation|]].
    intros r Hin. in_cases Hin.
  - eexists.
    exists [Guard_store seed; Call F_libc_init [] seed; Canary_mismatch F_libc_init].
    exists (violation_report X cfg).
    repeat split. right. exists F_libc_init.
    split; [reflexivity | split; [apply exit_report_violation|]].
    intros r Hin. in_cases Hin.
Qed.

Lemma start_issues_exactly_one_terminal_call_witness :
  comes_back (__libc_init smashing) /\
  comes_back (__shield_rand_set_seed smashing 1) /\
  comes_back (main smashing) /\
  exists mf pre e,
    _start smashing sentry_arm 1 1 (boot 0 1) = Terminated mf /\
    events_since (boot 0 1) (_start smashing sentry_arm 1 1 (boot 0 1)) = pre ++ [e] /\
    exit_reports 0 pre = [] /\
    ((violations pre = [] /\
      exists v, In (Return F_main (Some v)) pre /\ e = Sys_exit v)
     \/
     (exists f, violations pre = [f] /\
                exit_report 0 e = Some 123 /\
                forall v, ~ In (Return F_main v) pre)).
Proof.
  assert (B1 : comes_back (__libc_init smashing)) by (intros m H; discriminate H).
  assert (B2 : comes_back (__shield_rand_set_seed smashing 1)) by (intros m H; discriminate H).
  assert (B3 : comes_back (main smashing)) by (intros m H; discriminate H).
  split; [exact B1 | split; [exact B2 | split; [exact B3 |]]].
  exact (proj2 (proj2
           (start_issues_exactly_one_terminal_call Z smashing sentry_arm 1 1 (boot 0 1)))
           B1 B2 B3).
Defined.

(** ** Life of the guard *)

(** C6.  The guard is zero in the image as loaded.  A run of [_start]
    stores to it exactly once: the store of [seed] is the first event of
    the run, before every call, and no later event is a store to the
    guard.  The store reaches memory: [__libc_init] finds [seed] in the
    guard.  After it [_start] does not write the guard: the memory at the
    end of the run is the one the last function called left, guard
    included.  Nor does [_start] read it: the run does not depend on the
    value the guard held on entry, and when the functions called are
    replaced by ones that leave other values in the guard and do the same
    otherwise, the run makes the same calls with the same arguments and
    hands the kernel the same reports. *)
Theorem guard_zero_then_written_once :
  forall (env : Type) (X : externals env) (cfg : config)
         (thread_id seed : Z) (m : machine env) (w : env) (reg g : Z),
    __stack_chk_guard (image_load w) = 0 /\
    __stack_chk_guard (mem (boot w reg)) = 0 /\
    (exists rest,
        events_since m (_start X cfg thread_id seed m) = Guard_store seed :: rest /\
        guard_stores rest = []) /\
    guard_stores (events_since m (_start X cfg thread_id seed m)) = [seed] /\
    _start X cfg thread_id seed
      {| mem := {| __stack_chk_guard := g; world := world (mem m) |};
         r0 := r0 m;
         trace := trace m |}
    = _start X cfg thread_id seed m /\
    (forall args g',
        In (Call F_libc_init args g') (events_since m (_start X cfg thread_id seed m)) ->
        g' = seed) /\
    mem (final (_start X cfg thread_id seed m)) =
      match __libc_init X {| __stack_chk_guard := seed; world := world (mem m) |} with
      | Hangs => {| __stack_chk_guard := seed; world := world (mem m) |}
      | Smashes mm => mm
      | Returns _ m1 =>
          match __shield_rand_set_seed X seed m1 with
          | Hangs => m1
          | Smashes mm => mm
          | Returns _ m2 =>
              match main X m2 with
              | Hangs => m2
              | Smashes mm => mm
              | Returns _ m3 => m3
              end
          end
      end /\
    (forall X' : externals env,
        SYSCALL_EXIT X' = SYSCALL_EXIT X ->
        same_up_to_guard (__libc_init X) (__libc_init X') ->
        same_up_to_guard (__shield_rand_set_seed X seed) (__shield_rand_set_seed X' seed) ->
        same_up_to_guard (main X) (main X') ->
        map erase_guard_seen (events_since m (_start X cfg thread_id seed m)) =
          map erase_guard_seen (events_since m (_start X' cfg thread_id seed m)) /\
        world (mem (final (_start X cfg thread_id seed m))) =
          world (mem (final (_start X' cfg thread_id seed m))) /\
        r0 (final (_start X cfg thread_id seed m)) =
          r0 (final (_start X' cfg thread_id seed m))).
Proof.
  intros env X cfg thread_id seed m w reg g.
  split; [reflexivity | split; [reflexivity |]].
  split; [| split; [| split; [| split; [| split]]]].
  - start_cases X cfg thread_id seed m;
      (eexists; split; [simpl; reflexivity|]);
      unfold violation_report; destruct (def___arm__ cfg); reflexivity.
  - start_cases X cfg thread_id seed m;
      unfold violation_report; destruct (def___arm__ cfg); reflexivity.
  - rewrite !_start_cases. reflexivity.
  - intros args g'.
    start_cases X cfg thread_id seed m; intros Hin; in_cases Hin;
      injection Hin as _ Hg; symmetry; exact Hg.
  - start_cases X cfg thread_id seed m; reflexivity.
  - intros X' Hsys Hl Hr Hm.
    rewrite (_start_cases X cfg thread_id seed m), (_start_cases X' cfg thread_id seed m).
    unfold violation_end, violation_report. rewrite Hsys.
    specialize (Hl {| __stack_chk_guard := seed; world := world (mem m) |}
                   {| __stack_chk_guard := seed; world := world (mem m) |} eq_refl).
    destruct (__libc_init X _) as [u1 m1|mm1|], (__libc_init X' _) as [u1' m1'|mm1'|];
      simpl in Hl; try contradiction.
    + destruct Hl as [_ Hw1].
      specialize (Hr m1 m1' Hw1).
      destruct (__shield_rand_set_seed X seed m1) as [u2 m2|mm2|],
               (__shield_rand_set_seed X' seed m1') as [u2' m2'|mm2'|];
        simpl in Hr; try contradiction.
      * destruct Hr as [_ Hw2].
        specialize (Hm m2 m2' Hw2).
        destruct (main X m2) as [v m3|mm3|], (main X' m2') as [v' m3'|mm3'|];
          simpl in Hm; try contradiction.
        -- destruct Hm as [<- Hw3].
           erewrite !events_since_app by (simpl; reflexivity).
           simpl. repeat split. exact Hw3.
        -- erewrite !events_since_app by (simpl; reflexivity).
           simpl. repeat split. exact Hm.
        -- erewrite !events_since_app by (simpl; reflexivity).
           simpl. repeat split. exact Hw2.
      * erewrite !events_since_app by (simpl; reflexivity).
        simpl. repeat split. exact Hr.
      * erewrite !events_since_app by (simpl; reflexivity).
        simpl. repeat split. exact Hw1.
    + erewrite !events_since_app by (simpl; reflexivity).
      simpl. repeat split. exact Hl.
    + erewrite !events_since_app by (simpl; reflexivity).
      simpl. repeat split.
Qed.

Lemma guard_zero_then_written_once_witness :
  same_up_to_guard (__libc_init (returning 0)) (__libc_init (guard_rewriting 0)) /\
  same_up_to_guard (__shield_rand_set_seed (returning 0) 5)
                   (__shield_rand_set_seed (guard_rewriting 0) 5) /\
  same_up_to_guard (main (returning 0)) (main (guard_rewriting 0)) /\
  map erase_guard_seen (events_since (boot 0 1) (_start (returning 0) sentry_host 1 5 (boot 0 1))) =
    map erase_guard_seen
      (events_since (boot 0 1) (_start (guard_rewriting 0) sentry_host 1 5 (boot 0 1))) /\
  world (mem (final (_start (returning 0) sentry_host 1 5 (boot 0 1)))) =
    world (mem (final (_start (guard_rewriting 0) sentry_host 1 5 (boot 0 1)))) /\
  r0 (final (_start (returning 0) sentry_host 1 5 (boot 0 1))) =
    r0 (final (_start (guard_rewriting 0) sentry_host 1 5 (boot 0 1))).
Proof.
  assert (S1 : same_up_to_guard (__libc_init (returning 0)) (__libc_init (guard_rewriting 0))).
  { intros mm mm' Hw. simpl. split; [reflexivity | exact Hw]. }
  assert (S2 : same_up_to_guard (__shield_rand_set_seed (returning 0) 5)
                                (__shield_rand_set_seed (guard_rewriting 0) 5)).
  { intros mm mm' Hw. simpl. split; reflexivity. }
  assert (S3 : same_up_to_guard (main (returning 0)) (main (guard_rewriting 0))).
  { intros mm mm' Hw. simpl. split; [reflexivity | exact Hw]. }
  split; [exact S1 | split; [exact S2 | split; [exact S3 |]]].
  exact (proj2 (proj2 (proj2 (proj2 (proj2 (proj2 (proj2
           (guard_zero_then_written_once Z (returning 0) sentry_host 1 5 (boot 0 1) 0 0 0)))))))
           (guard_rewriting 0) eq_refl S1 S2 S3).
Defined.

(** ** The thread identifier *)

(** C7, as stated, fails: in the run of scenario A the only call of
    [__libc_init] has no argument, so thread identifier 7 is not handed to
    it. *)
Lemma thread_id_not_forwarded_scenario_A :
  ~ thread_id_forwarded (returning 0) sentry_arm 7 3735928559 (boot 0 7).
Proof.
  intros [args [Hin Hid]].
  vm_compute in Hin.
  destruct Hin as [Hin|[]]. subst args. destruct Hid.
Qed.

(** C7, amended.  [_start] does not forward [thread_id] to the runtime
    initializer: every run begins with the store of [seed] and the call
    of [__libc_init] without arguments, and that is the only call of
    [__libc_init] in the run. *)
Theorem libc_init_called_without_thread_id :
  forall (env : Type) (X : externals env) (cfg : config)
         (thread_id seed : Z) (m : machine env),
    calls_to F_libc_init (events_since m (_start X cfg thread_id seed m)) = [[]] /\
    ~ thread_id_forwarded X cfg thread_id seed m /\
    exists rest,
      events_since m (_start X cfg thread_id seed m) =
        Guard_store seed :: Call F_libc_init [] seed :: rest.
Proof.
  intros env X cfg thread_id seed m.
  assert (Hc : calls_to F_libc_init (events_since m (_start X cfg thread_id seed m)) = [[]]).
  { start_cases X cfg thread_id seed m;
      unfold violation_report; destruct (def___arm__ cfg); reflexivity. }
  split; [exact Hc | split].
  - intros [args [Hin Hid]]. rewrite Hc in Hin.
    destruct Hin as [Hin|[]]. subst args. destruct Hid.
  - start_cases X cfg thread_id seed m; eexists; simpl; reflexivity.
Qed.

(** ** The variants of the handler *)

(** C8.  The supervisor-call definition and the portable definition of
    thread_init.c meet the contract of the handler: run in any state, each
    ends in the kernel without returning and hands it the status 123 and
    nothing else; so does the one thread_init.c selects, and in any state
    the two hand the kernel the same reports.  The header does not give a
    third handler: with [__ARM__] defined it does not compile, without it
    it declares nothing. *)
Theorem thread_init_handlers_share_contract_header_gives_none :
  forall (env : Type) (X : externals env) (cfg : config),
    violation_contract X (__stack_chk_fail_arm X) /\
    violation_contract X __stack_chk_fail_portable /\
    violation_contract X (__stack_chk_fail X cfg) /\
    (forall m : machine env,
        exit_reports (SYSCALL_EXIT X) (events_since m (__stack_chk_fail_arm X m)) =
        exit_reports (SYSCALL_EXIT X) (events_since m (__stack_chk_fail_portable m))) /\
    match @ssp_h env cfg with
    | inl e => def___ARM__ cfg = true /\ e = Asm_operand_without_parentheses
    | inr None => def___ARM__ cfg = false
    | inr (Some _) => False
    end.
Proof.
  intros env X cfg.
  assert (Hsvc : violation_contract X (__stack_chk_fail_arm X)).
  { intros m. unfold __stack_chk_fail_arm, bind, ldr_r0, svc, record_event. simpl.
    rewrite Z.eqb_refl. eexists. split; [reflexivity|].
    erewrite events_since_app by (simpl; reflexivity).
    simpl. rewrite Z.eqb_refl. reflexivity. }
  assert (Hcall : violation_contract X (@__stack_chk_fail_portable env)).
  { intros m. unfold __stack_chk_fail_portable, __sys_exit, record_event.
    eexists. split; [reflexivity|].
    erewrite events_since_app by (simpl; reflexivity).
    reflexivity. }
  split; [exact Hsvc | split; [exact Hcall | split; [| split]]].
  - unfold __stack_chk_fail. destruct (def___arm__ cfg); assumption.
  - intros m.
    destruct (Hsvc m) as [ma [_ Ha]]. destruct (Hcall m) as [mb [_ Hb]].
    rewrite Ha, Hb. reflexivity.
  - unfold ssp_h. destruct (def___ARM__ cfg); [split; reflexivity | reflexivity].
Qed.

(** ** Build-time selection of the backend *)

(** C9.  thread_init.c compiles exactly when [CONFIG_WITH_SENTRY] is
    defined to a non-zero value; otherwise the build stops on the error
    [No_supported_backend] and there is no image to run.  When it
    compiles, the entry symbol is [_start], whose runs are the same for
    every value that selects the backend: nothing of the selection is left
    at run time. *)
Theorem unsupported_backend_is_a_build_error :
  forall (env : Type) (X : externals env) (cfg : config),
    (sentry_selected cfg = false -> thread_init_c X cfg = inl No_supported_backend) /\
    (forall img,
        thread_init_c X cfg = inr img ->
        sentry_selected cfg = true /\
        forall cfg' thread_id seed m,
          def___arm__ cfg' = def___arm__ cfg ->
          sym__start img thread_id seed m = _start X cfg' thread_id seed m).
Proof.
  intros env X cfg. unfold thread_init_c.
  destruct (sentry_selected cfg).
  - split; [discriminate|].
    intros img Himg. injection Himg as <-. split; [reflexivity|].
    intros cfg' thread_id seed m Harch. simpl.
    rewrite !_start_cases. unfold violation_end, violation_report.
    rewrite Harch. reflexivity.
  - split; [reflexivity | discriminate].
Qed.

Lemma unsupported_backend_is_a_build_error_witness :
  thread_init_c (returning 0) no_backend = inl No_supported_backend /\
  exists img,
    thread_init_c (returning 0) sentry_arm = inr img /\
    sym__start img 7 3735928559 (boot 0 7) =
    _start (returning 0)
      {| def___arm__ := true; def___ARM__ := true; CONFIG_WITH_SENTRY := Some 2 |}
      7 3735928559 (boot 0 7).
Proof.
  split.
  - exact (proj1 (unsupported_backend_is_a_build_error Z (returning 0) no_backend) eq_refl).
  - eexists. split; [reflexivity|].
    exact (proj2 (proj2 (unsupported_backend_is_a_build_error Z (returning 0) sentry_arm)
                    _ eq_refl)
             {| def___arm__ := true; def___ARM__ := true; CONFIG_WITH_SENTRY := Some 2 |}
             7 3735928559 (boot 0 7) eq_refl).
Defined.

(** ** Independence from the thread identifier *)

(** C10.  [_start] does not use [thread_id]: for every seed, initial state,
    callees and any two thread identifiers the two runs are equal, hence so
    are the final guard, the calls made with their arguments, and the exit
    reports. *)
Theorem start_independent_of_thread_id :
  forall (env : Type) (X : externals env) (cfg : config)
         (t1 t2 seed : Z) (m : machine env),
    _start X cfg t1 seed m = _start X cfg t2 seed m /\
    __stack_chk_guard (mem (final (_start X cfg t1 seed m))) =
      __stack_chk_guard (mem (final (_start X cfg t2 seed m))) /\
    events_since m (_start X cfg t1 seed m) = events_since m (_start X cfg t2 seed m) /\
    exit_reports (SYSCALL_EXIT X) (events_since m (_start X cfg t1 seed m)) =
      exit_reports (SYSCALL_EXIT X) (events_since m (_start X cfg t2 seed m)).
Proof.
  intros env X cfg t1 t2 seed m.
  assert (H : _start X cfg t1 seed m = _start X cfg t2 seed m).
  { rewrite !_start_cases. reflexivity. }
  rewrite H. repeat split.
Qed.

(** * Further properties of the entry trampoline *)

Lemma violation_report_not_mismatch {env : Type} (X : externals env) (cfg : config)
    (f : callee) :
  violation_report X cfg <> Canary_mismatch f.
Proof.
  unfold violation_report. destruct (def___arm__ cfg); discriminate.
Qed.

(** As [in_cases], for memberships of a failed check. *)
Ltac mismatch_cases H :=
  simpl in H;
  repeat match type of H with
         | _ \/ _ => destruct H as [H|H]
         | False => destruct H
         | violation_report _ _ = Canary_mismatch _ =>
             exfalso; exact (violation_report_not_mismatch _ _ _ H)
         | _ = _ => discriminate H
         end.

(** ** Which functions a run calls *)

(** X1.  A run of [_start] calls [__shield_rand_set_seed] exactly when
    [__libc_init] returned, once and with [seed] as its only argument; it
    calls [main] exactly when both returned, once and without arguments.
    When an earlier function fails its check or never comes back, the
    later ones are not called. *)
Theorem later_callees_run_only_after_earlier_return :
  forall (env : Type) (X : externals env) (cfg : config)
         (thread_id seed : Z) (m : machine env),
    calls_to F_rand_set_seed (events_since m (_start X cfg thread_id seed m)) =
      match __libc_init X {| __stack_chk_guard := seed; world := world (mem m) |} with
      | Returns _ _ => [[seed]]
      | _ => []
      end /\
    calls_to F_main (events_since m (_start X cfg thread_id seed m)) =
      match __libc_init X {| __stack_chk_guard := seed; world := world (mem m) |} with
      | Returns _ m1 =>
          match __shield_rand_set_seed X seed m1 with
          | Returns _ _ => [[]]
          | _ => []
          end
      | _ => []
      end.
Proof.
  intros env X cfg thread_id seed m.
  start_cases X cfg thread_id seed m;
    rewrite ?Hrand; unfold violation_report; destruct (def___arm__ cfg);
    split; reflexivity.
Qed.

(** ** The guard as the callees find it *)

(** X2.  Whatever the callees do, [__libc_init] is entered with the guard
    already holding [seed]; when [__libc_init] leaves the guard alone, so
    is [__shield_rand_set_seed]. *)
Theorem callees_enter_with_guard_set :
  forall (env : Type) (X : externals env) (cfg : config)
         (thread_id seed : Z) (m : machine env),
    (forall args g,
        In (Call F_libc_init args g) (events_since m (_start X cfg thread_id seed m)) ->
        g = seed) /\
    (preserves_guard (__libc_init X) ->
     forall args g,
       In (Call F_rand_set_seed args g) (events_since m (_start X cfg thread_id seed m)) ->
       g = seed).
Proof.
  intros env X cfg thread_id seed m.
  split.
  - intros args g.
    start_cases X cfg thread_id seed m; intros Hin; in_cases Hin;
      injection Hin as _ Hg; symmetry; exact Hg.
  - intros Pinit args g.
    start_cases X cfg thread_id seed m; intros Hin; in_cases Hin;
      injection Hin as _ Hg; subst g; apply (Pinit _ _ _ Hinit).
Qed.

Lemma callees_enter_with_guard_set_witness :
  preserves_guard (__libc_init spying) /\
  forall args g,
    In (Call F_rand_set_seed args g)
       (events_since (boot 0 9) (_start spying sentry_arm 9 77 (boot 0 9))) ->
    g = 77.
Proof.
  assert (P1 : preserves_guard (__libc_init spying)).
  { intros m a m' H; simpl in H; injection H as _ H; subst m'; reflexivity. }
  split; [exact P1|].
  exact (proj2 (callees_enter_with_guard_set Z spying sentry_arm 9 77 (boot 0 9)) P1).
Defined.

(** ** How a run ends and what it has reported *)

(** X3.  A run of [_start] that ends in the kernel has handed it exactly
    one exit report; a run in which a callee never comes back has handed
    it none and has seen no check fail.  A run ends in no other way. *)
Theorem report_count_by_end_of_run :
  forall (env : Type) (X : externals env) (cfg : config)
         (thread_id seed : Z) (m : machine env),
    match _start X cfg thread_id seed m with
    | Terminated _ =>
        length (exit_reports (SYSCALL_EXIT X)
                  (events_since m (_start X cfg thread_id seed m))) = 1%nat
    | Diverged _ =>
        exit_reports (SYSCALL_EXIT X)
          (events_since m (_start X cfg thread_id seed m)) = [] /\
        violations (events_since m (_start X cfg thread_id seed m)) = []
    | Returned _ _ => False
    | Undefined _ => False
    end.
Proof.
  intros env X cfg thread_id seed m.
  start_cases X cfg thread_id seed m;
    simpl; rewrite ?exit_report_violation; try split; reflexivity.
Qed.

(** ** After a failed check *)

(** X4.  When a check fails inside a function [f] called by [_start], the
    run ends in the kernel two events later: [f] was the function called
    last, the failure follows its call at once, the report with status 123
    follows the failure at once, and [f] never returns. *)
Theorem failed_check_is_reported_at_once :
  forall (env : Type) (X : externals env) (cfg : config)
         (thread_id seed : Z) (m : machine env) (f : callee),
    In (Canary_mismatch f) (events_since m (_start X cfg thread_id seed m)) ->
    exists mf pre args g e,
      _start X cfg thread_id seed m = Terminated mf /\
      events_since m (_start X cfg thread_id seed m) =
        pre ++ [Call f args g; Canary_mismatch f; e] /\
      exit_report (SYSCALL_EXIT X) e = Some 123 /\
      forall v, ~ In (Return f v) (events_since m (_start X cfg thread_id seed m)).
Proof.
  intros env X cfg thread_id seed m f.
  start_cases X cfg thread_id seed m; intros Hin; mismatch_cases Hin;
    injection Hin as <-.
  - eexists.
    exists [Guard_store seed;
            Call F_libc_init [] seed; Return F_libc_init None;
            Call F_rand_set_seed [seed] (__stack_chk_guard m1);
            Return F_rand_set_seed None].
    exists [], (__stack_chk_guard m2), (violation_report X cfg).
    split; [reflexivity | split; [reflexivity | split]].
    + apply exit_report_violation.
    + intros r Hr. in_cases Hr.
  - eexists.
    exists [Guard_store seed;
            Call F_libc_init [] seed; Return F_libc_init None].
    exists [seed], (__stack_chk_guard m1), (violation_report X cfg).
    split; [reflexivity | split; [reflexivity | split]].
    + apply exit_report_violation.
    + intros r Hr. in_cases Hr.
  - eexists.
    exists [Guard_store seed].
    exists [], seed, (violation_report X cfg).
    split; [reflexivity | split; [reflexivity | split]].
    + apply exit_report_violation.
    + intros r Hr. in_cases Hr.
Qed.

Lemma failed_check_is_reported_at_once_witness :
  In (Canary_mismatch F_main)
     (events_since (boot 0 1) (_start smashing sentry_host 1 1 (boot 0 1))) /\
  exists mf pre args g e,
    _start smashing sentry_host 1 1 (boot 0 1) = Terminated mf /\
    events_since (boot 0 1) (_start smashing sentry_host 1 1 (boot 0 1)) =
      pre ++ [Call F_main args g; Canary_mismatch F_main; e] /\
    exit_report 0 e = Some 123 /\
    forall v, ~ In (Return F_main v)
                (events_since (boot 0 1) (_start smashing sentry_host 1 1 (boot 0 1))).
Proof.
  assert (H : In (Canary_mismatch F_main)
                (events_since (boot 0 1) (_start smashing sentry_host 1 1 (boot 0 1)))).
  { vm_compute. do 6 right. left. reflexivity. }
  split; [exact H|].
  exact (failed_check_is_reported_at_once Z smashing sentry_host 1 1 (boot 0 1) F_main H).
Defined.

(** ** Status 123 *)

(** X5.  The status does not tell a failed check from a [main] that
    returns 123: a run in which [main] returns 123 and any run in which a
    check fails hand the kernel the same reports, and when [__arm__] is
    not defined both runs end with the same event, [__sys_exit(123)]. *)
Theorem main_returning_123_reports_like_a_failed_check :
  forall (env : Type) (X : externals env) (cfg : config)
         (thread_id seed : Z) (m : machine env) (m1 m2 m3 : memory env)
         (env' : Type) (X' : externals env') (cfg' : config)
         (thread_id' seed' : Z) (m' : machine env') (f : callee),
    __libc_init X {| __stack_chk_guard := seed; world := world (mem m) |} = Returns tt m1 ->
    __shield_rand_set_seed X seed m1 = Returns tt m2 ->
    main X m2 = Returns 123 m3 ->
    In (Canary_mismatch f) (events_since m' (_start X' cfg' thread_id' seed' m')) ->
    exit_reports (SYSCALL_EXIT X) (events_since m (_start X cfg thread_id seed m)) =
      exit_reports (SYSCALL_EXIT X') (events_since m' (_start X' cfg' thread_id' seed' m')) /\
    (def___arm__ cfg' = false ->
     last (events_since m (_start X cfg thread_id seed m)) (Guard_store seed) =
       last (events_since m' (_start X' cfg' thread_id' seed' m')) (Guard_store seed)).
Proof.
  intros env X cfg thread_id seed m m1 m2 m3 env' X' cfg' thread_id' seed' m' f H1 H2 H3.
  rewrite (_start_cases X cfg thread_id seed m), H1, H2, H3.
  erewrite (events_since_app m) by (simpl; reflexivity).
  start_cases X' cfg' thread_id' seed' m'; intros Hin; mismatch_cases Hin;
    (split; [simpl; rewrite exit_report_violation; reflexivity |]);
    intros Harch; unfold violation_report; rewrite Harch; reflexivity.
Qed.

Lemma main_returning_123_reports_like_a_failed_check_witness :
  exit_reports 0 (events_since (boot 0 1) (_start (returning 123) sentry_arm 1 5 (boot 0 1))) =
    exit_reports 0 (events_since (boot 0 1) (_start smashing sentry_host 1 1 (boot 0 1))) /\
  (def___arm__ sentry_host = false ->
   last (events_since (boot 0 1) (_start (returning 123) sentry_arm 1 5 (boot 0 1)))
        (Guard_store 5) =
     last (events_since (boot 0 1) (_start smashing sentry_host 1 1 (boot 0 1)))
          (Guard_store 5)).
Proof.
  assert (H : In (Canary_mismatch F_main)
                (events_since (boot 0 1) (_start smashing sentry_host 1 1 (boot 0 1)))).
  { vm_compute. do 6 right. left. reflexivity. }
  exact (main_returning_123_reports_like_a_failed_check
           Z (returning 123) sentry_arm 1 5 (boot 0 1)
           {| __stack_chk_guard := 5; world := 0 |}
           {| __stack_chk_guard := 5; world := 5 |}
           {| __stack_chk_guard := 5; world := 5 |}
           Z smashing sentry_host 1 1 (boot 0 1) F_main
           eq_refl eq_refl eq_refl H).
Defined.

(** ** The two ways into the kernel *)

(** X6.  When [__arm__] is not defined no run of [_start] executes a
    supervisor call.  When it is defined, every call of [__sys_exit] in a
    run carries the value [main] returned, and a failed check is reported
    by a supervisor call with the exit identifier and 123 in [r0]. *)
Theorem kernel_entry_by_build :
  forall (env : Type) (X : externals env) (cfg : config)
         (thread_id seed : Z) (m : machine env),
    (def___arm__ cfg = false ->
     forall imm reg,
       ~ In (Svc imm reg) (events_since m (_start X cfg thread_id seed m))) /\
    (def___arm__ cfg = true ->
     (forall v,
         In (Sys_exit v) (events_since m (_start X cfg thread_id seed m)) ->
         In (Return F_main (Some v)) (events_since m (_start X cfg thread_id seed m))) /\
     (forall f,
         In (Canary_mismatch f) (events_since m (_start X cfg thread_id seed m)) ->
         In (Svc (SYSCALL_EXIT X) 123) (events_since m (_start X cfg thread_id seed m)) /\
         r0 (final (_start X cfg thread_id seed m)) = 123)).
Proof.
  intros env X cfg thread_id seed m.
  split.
  - intros Harch imm reg.
    start_cases X cfg thread_id seed m;
      unfold violation_report; rewrite ?Harch; intros Hin;
      simpl in Hin;
      repeat (destruct Hin as [Hin|Hin]; [discriminate Hin|]);
      destruct Hin.
  - intros Harch. split.
    + intros v.
      start_cases X cfg thread_id seed m;
        unfold violation_report; rewrite ?Harch; intros Hin;
        simpl in Hin;
        repeat (destruct Hin as [Hin|Hin]; [discriminate Hin|]);
        try (destruct Hin; fail).
      destruct Hin as [Hin|[]]. injection Hin as <-.
      simpl. do 6 right. left. reflexivity.
    + intros f.
      start_cases X cfg thread_id seed m; intros Hin; mismatch_cases Hin;
        unfold violation_end, violation_report; rewrite Harch;
        (split; [apply in_or_app; right; simpl; tauto | reflexivity]).
Qed.

Lemma kernel_entry_by_build_witness :
  (forall imm reg,
      ~ In (Svc imm reg)
          (events_since (boot 0 1) (_start smashing sentry_host 1 1 (boot 0 1)))) /\
  In (Svc 0 123) (events_since (boot 0 1) (_start smashing sentry_arm 1 1 (boot 0 1))) /\
  r0 (final (_start smashing sentry_arm 1 1 (boot 0 1))) = 123.
Proof.
  split.
  - exact (proj1 (kernel_entry_by_build Z smashing sentry_host 1 1 (boot 0 1)) eq_refl).
  - apply (proj2 (proj2 (kernel_entry_by_build Z smashing sentry_arm 1 1 (boot 0 1)) eq_refl)
             F_main).
    vm_compute. do 6 right. left. reflexivity.
Defined.
